(** * The Pareto distribution of boost/math/distributions/pareto.hpp

    The header is a template over [RealType].  This development instantiates
    it twice.

    The first instance has exact arithmetic: a value is a real number or one
    of the three non-finite values a floating-point type has, so that the
    [isfinite] guards of the header keep their meaning.  Rounding and
    overflow are not part of this instance.  It carries the results that
    rest on the checks and the branch comparisons alone: which checks run,
    in which order, which error is raised, and where two entry points run
    the same computation.  A floating-point type decides these comparisons
    exactly.

    The second instance, [Double], is [double]: IEEE 754 binary64 numbers
    with their rounded arithmetic.  It carries the results on the values
    the entry points return. *)

From Stdlib Require Import Reals Lra Bool String List ZArith.
From Stdlib Require Import Floats.
Import ListNotations.

Open Scope R_scope.
Open Scope string_scope.

(** ** The numeric type *)

Inductive RealType : Type :=
| Finite (r : R)
| PosInf
| NegInf
| NaN.

Declare Scope fp_scope.
Delimit Scope fp_scope with fp.
Bind Scope fp_scope with RealType.

Definition isfinite (x : RealType) : bool :=
  match x with
  | Finite _ => true
  | _ => false
  end.

(** Sign of a real, [None] at zero (the model has a single zero). *)
Definition Rsign (r : R) : option bool :=
  if Rlt_dec 0 r then Some true
  else if Rlt_dec r 0 then Some false
  else None.

Definition inf_of (positive : bool) : RealType :=
  if positive then PosInf else NegInf.

Definition Fneg (x : RealType) : RealType :=
  match x with
  | Finite a => Finite (- a)
  | PosInf => NegInf
  | NegInf => PosInf
  | NaN => NaN
  end.

Definition Fadd (x y : RealType) : RealType :=
  match x, y with
  | Finite a, Finite b => Finite (a + b)
  | NaN, _ | _, NaN => NaN
  | PosInf, NegInf | NegInf, PosInf => NaN
  | PosInf, _ | _, PosInf => PosInf
  | NegInf, _ | _, NegInf => NegInf
  end.

Definition Fsub (x y : RealType) : RealType := Fadd x (Fneg y).

Definition Fmul_inf (positive : bool) (y : RealType) : RealType :=
  match y with
  | Finite b =>
      match Rsign b with
      | Some s => inf_of (Bool.eqb positive s)
      | None => NaN
      end
  | PosInf => inf_of positive
  | NegInf => inf_of (negb positive)
  | NaN => NaN
  end.

Definition Fmul (x y : RealType) : RealType :=
  match x, y with
  | Finite a, Finite b => Finite (a * b)
  | NaN, _ | _, NaN => NaN
  | PosInf, _ => Fmul_inf true y
  | NegInf, _ => Fmul_inf false y
  | _, PosInf => Fmul_inf true x
  | _, NegInf => Fmul_inf false x
  end.

Definition Fdiv (x y : RealType) : RealType :=
  match x, y with
  | Finite a, Finite b =>
      if Req_dec_T b 0 then
        match Rsign a with
        | Some s => inf_of s
        | None => NaN
        end
      else Finite (a / b)
  | NaN, _ | _, NaN => NaN
  | Finite _, _ => Finite 0
  | PosInf, Finite b => inf_of (if Rlt_dec b 0 then false else true)
  | NegInf, Finite b => inf_of (if Rlt_dec b 0 then true else false)
  | _, _ => NaN
  end.

Definition Flt (x y : RealType) : bool :=
  match x, y with
  | Finite a, Finite b => if Rlt_dec a b then true else false
  | NegInf, Finite _ | NegInf, PosInf | Finite _, PosInf => true
  | _, _ => false
  end.

Definition Fle (x y : RealType) : bool :=
  match x, y with
  | Finite a, Finite b => if Rle_dec a b then true else false
  | NaN, _ | _, NaN => false
  | NegInf, _ | _, PosInf => true
  | _, _ => false
  end.

Definition Fgt (x y : RealType) : bool := Flt y x.

Definition Feq (x y : RealType) : bool :=
  match x, y with
  | Finite a, Finite b => if Req_dec_T a b then true else false
  | PosInf, PosInf | NegInf, NegInf => true
  | _, _ => false
  end.

Notation "- x" := (Fneg x) : fp_scope.
Infix "+" := Fadd : fp_scope.
Infix "-" := Fsub : fp_scope.
Infix "*" := Fmul : fp_scope.
Infix "/" := Fdiv : fp_scope.
Infix "<?" := Flt (at level 70, no associativity) : fp_scope.
Infix "<=?" := Fle (at level 70, no associativity) : fp_scope.
Infix ">?" := Fgt (at level 70, no associativity) : fp_scope.
Infix "=?" := Feq (at level 70, no associativity) : fp_scope.

(** ** The functions of <cmath> the header calls *)

Module std.

(** Whether a real is an integer, and whether that integer is odd. *)
Definition is_integer (b : R) : bool :=
  if Req_dec_T (frac_part b) 0 then true else false.

Definition is_odd_integer (b : R) : bool :=
  is_integer b && Z.odd (Int_part b).

(** [pow]: exact on a positive finite base, where it is [Rpower]; elsewhere
    the special cases of the C standard, with the one zero of the model
    standing for a positive zero. *)
Definition pow (x y : RealType) : RealType :=
  if (y =? Finite 0)%fp then Finite 1
  else if (x =? Finite 1)%fp then Finite 1
  else
    match x, y with
    | NaN, _ | _, NaN => NaN
    | Finite a, Finite b =>
        match Rsign a with
        | Some true => Finite (Rpower a b)
        | None => if Rlt_dec 0 b then Finite 0 else PosInf
        | Some false =>
            if is_integer b then
              Finite (if is_odd_integer b then - Rpower (- a) b
                      else Rpower (- a) b)
            else NaN
        end
    | Finite a, PosInf =>
        if Rlt_dec (Rabs a) 1 then Finite 0
        else if Rlt_dec 1 (Rabs a) then PosInf else Finite 1
    | Finite a, NegInf =>
        if Rlt_dec (Rabs a) 1 then PosInf
        else if Rlt_dec 1 (Rabs a) then Finite 0 else Finite 1
    | PosInf, _ => if (y <? Finite 0)%fp then Finite 0 else PosInf
    | NegInf, Finite b =>
        if Rlt_dec b 0 then Finite 0
        else if is_odd_integer b then NegInf else PosInf
    | NegInf, PosInf => PosInf
    | NegInf, NegInf => Finite 0
    end.

Definition sqrt (x : RealType) : RealType :=
  match x with
  | Finite a => if Rle_dec 0 a then Finite (R_sqrt.sqrt a) else NaN
  | PosInf => PosInf
  | NegInf | NaN => NaN
  end.

End std.

(** ** Domain errors *)

(** The outcome of an entry point: a value, or the domain error that
    [policies::raise_domain_error] was called with (the function name, the
    message with its [%1%] placeholder, and the offending value).  What the
    policy then does with it, unwinding or returning a not-a-number, is
    outside the header. *)
Inductive result (A : Type) : Type :=
| Ok (a : A)
| DomainError (function message : string) (val : RealType).

Arguments Ok {A} a.
Arguments DomainError {A} function message val.

Definition bind {A B : Type} (r : result A) (k : A -> result B) : result B :=
  match r with
  | Ok a => k a
  | DomainError f m v => DomainError f m v
  end.

Notation "x <- r ;; k" := (bind r (fun x => k))
  (at level 61, r at next level, right associativity).
Notation "r ;; k" := (bind r (fun _ => k))
  (at level 61, right associativity).

Definition raise_domain_error {A : Type}
    (function message : string) (val : RealType) : result A :=
  DomainError function message val.

Definition is_domain_error {A : Type} (r : result A) : bool :=
  match r with
  | Ok _ => false
  | DomainError _ _ _ => true
  end.

(** The message of an outcome, if it is an error. *)
Definition message_of {A : Type} (r : result A) : option string :=
  match r with
  | Ok _ => None
  | DomainError _ m _ => Some m
  end.

(** Whether [needle] occurs in [hay]. *)
Fixpoint contains (needle hay : string) : bool :=
  prefix needle hay ||
  match hay with
  | EmptyString => false
  | String _ rest => contains needle rest
  end.

(** ** Parameter checking (namespace detail)

    A checker of the header returns [true], or writes the raised error to
    [*result] and returns [false]; here it returns [Ok tt] or the error, and
    the short-circuit [&&] of two checkers is [;;]. *)

Module detail.

Definition check_pareto_location (function : string) (location : RealType)
    : result unit :=
  if isfinite location then
    if (location >? Finite 0)%fp then Ok tt
    else raise_domain_error function
           "Location parameter is %1%, but must be > 0!" location
  else raise_domain_error function
         "Location parameter is %1%, but must be finite!" location.

Definition check_pareto_shape (function : string) (shape : RealType)
    : result unit :=
  if isfinite shape then
    if (shape >? Finite 0)%fp then Ok tt
    else raise_domain_error function
           "Shape parameter is %1%, but must be > 0!" shape
  else raise_domain_error function
         "Shape parameter is %1%, but must be finite!" shape.

Definition check_pareto_x (function : string) (x : RealType) : result unit :=
  if isfinite x then
    if (x >? Finite 0)%fp then Ok tt
    else raise_domain_error function
           "x parameter is %1%, but must be > 0 !" x
  else raise_domain_error function
         "x parameter is %1%, but must be finite!" x.

Definition check_pareto (function : string) (location shape : RealType)
    : result unit :=
  check_pareto_location function location ;;
  check_pareto_shape function shape.

(** Modelled from the spec: [check_probability] lives in
    detail/common_error_handling.hpp, which is not part of the sources at
    hand.  The probability must be finite and within [0, 1]; otherwise a
    domain error describing the violated bound is raised. *)
Definition check_probability (function : string) (prob : RealType)
    : result unit :=
  if (prob <? Finite 0)%fp || (prob >? Finite 1)%fp || negb (isfinite prob)
  then raise_domain_error function
         "Probability argument is %1%, but must be >= 0 and <= 1 !" prob
  else Ok tt.

End detail.

(** Modelled from the spec: [powm1] lives in special_functions/powm1.hpp,
    which is not part of the sources at hand.  [powm1 a z] evaluates
    [a^z - 1]. *)
Definition powm1 (a z : RealType) : RealType :=
  (std.pow a z - Finite 1)%fp.

(** ** The distribution *)

Record pareto_distribution : Type := {
  m_location : RealType;  (* distribution location (xm) *)
  m_shape : RealType      (* distribution shape (k) *)
}.

Definition location (dist : pareto_distribution) : RealType := m_location dist.
Definition shape (dist : pareto_distribution) : RealType := m_shape dist.

(** The constructor initialises both members and then runs the check in its
    body.  The object comes with the outcome of that check: a policy that
    unwinds discards the object, any other leaves it with the parameters it
    was given, which is why the entry points below check them again. *)
Definition make_pareto_distribution (location shape : RealType)
    : pareto_distribution * result unit :=
  ({| m_location := location; m_shape := shape |},
   detail.check_pareto
     "boost::math::pareto_distribution<%1%>::pareto_distribution"
     location shape).

(** The default arguments of the constructor. *)
Definition pareto_default : pareto_distribution * result unit :=
  make_pareto_distribution (Finite 1) (Finite 1).

Section Pareto.

(** [tools::max_value<RealType>()], the largest finite value of the numeric
    type; it is declared outside the header and is a parameter here. *)
Variable max_value : RealType.

Definition range (dist : pareto_distribution) : RealType * RealType :=
  (Finite 0, max_value).

Definition support (dist : pareto_distribution) : RealType * RealType :=
  (location dist, max_value).

Definition pdf (dist : pareto_distribution) (x : RealType) : result RealType :=
  let function := "boost::math::pdf(const pareto_distribution<%1%>&, %1%)" in
  let location := location dist in
  let shape := shape dist in
  detail.check_pareto_x function x ;;
  detail.check_pareto function location shape ;;
  if (x <? location)%fp then Ok (Finite 0)
  else Ok (shape * std.pow location shape / std.pow x (shape + Finite 1))%fp.

Definition cdf (dist : pareto_distribution) (x : RealType) : result RealType :=
  let function := "boost::math::cdf(const pareto_distribution<%1%>&, %1%)" in
  let location := location dist in
  let shape := shape dist in
  detail.check_pareto_x function x ;;
  detail.check_pareto function location shape ;;
  if (x <=? location)%fp then Ok (Finite 0)
  else Ok (- powm1 (location / x) shape)%fp.

Definition quantile (dist : pareto_distribution) (p : RealType)
    : result RealType :=
  let function :=
    "boost::math::quantile(const pareto_distribution<%1%>&, %1%)" in
  let location := location dist in
  let shape := shape dist in
  detail.check_probability function p ;;
  detail.check_pareto function location shape ;;
  if (p =? Finite 0)%fp then Ok location
  else if (p =? Finite 1)%fp then Ok max_value
  else Ok (location / std.pow (Finite 1 - p) (Finite 1 / shape))%fp.

(** A distribution paired with the argument of an upper-tail query. *)
Record complemented2_type : Type := complement {
  c_dist : pareto_distribution;
  c_param : RealType
}.

Definition cdf_complement (c : complemented2_type) : result RealType :=
  let function := "boost::math::cdf(const pareto_distribution<%1%>&, %1%)" in
  let x := c_param c in
  let location := location (c_dist c) in
  let shape := shape (c_dist c) in
  detail.check_pareto_x function x ;;
  detail.check_pareto function location shape ;;
  if (x <=? location)%fp then Ok (Finite 1)
  else Ok (std.pow (location / x) shape).

Definition quantile_complement (c : complemented2_type) : result RealType :=
  let function :=
    "boost::math::quantile(const pareto_distribution<%1%>&, %1%)" in
  let q := c_param c in
  let location := location (c_dist c) in
  let shape := shape (c_dist c) in
  detail.check_probability function q ;;
  detail.check_pareto function location shape ;;
  if (q =? Finite 1)%fp then Ok location
  else if (q =? Finite 0)%fp then Ok max_value
  else Ok (location / std.pow q (Finite 1 / shape))%fp.

Definition mean (dist : pareto_distribution) : result RealType :=
  let function := "boost::math::mean(const pareto_distribution<%1%>&, %1%)" in
  detail.check_pareto function (location dist) (shape dist) ;;
  if (shape dist >? Finite 1)%fp
  then Ok (shape dist * location dist / (shape dist - Finite 1))%fp
  else Ok max_value.

Definition mode (dist : pareto_distribution) : result RealType :=
  Ok (location dist).

Definition median (dist : pareto_distribution) : result RealType :=
  let function :=
    "boost::math::median(const pareto_distribution<%1%>&, %1%)" in
  detail.check_pareto function (location dist) (shape dist) ;;
  Ok (location dist * std.pow (Finite 2) (Finite 1 / shape dist))%fp.

Definition variance (dist : pareto_distribution) : result RealType :=
  let location := location dist in
  let shape := shape dist in
  let function :=
    "boost::math::variance(const pareto_distribution<%1%>&, %1%)" in
  detail.check_pareto function location shape ;;
  if (shape >? Finite 2)%fp
  then Ok ((location * location * shape) /
           ((shape - Finite 1) * (shape - Finite 1) * (shape - Finite 2)))%fp
  else raise_domain_error function
         "variance is undefined for shape <= 2, but got %1%." shape.

Definition skewness (dist : pareto_distribution) : result RealType :=
  let shape := shape dist in
  let function := "boost::math::pdf(const pareto_distribution<%1%>&, %1%)" in
  detail.check_pareto function (location dist) shape ;;
  if (shape >? Finite 3)%fp
  then Ok (std.sqrt ((shape - Finite 2) / shape) *
           Finite 2 * (shape + Finite 1) /
           (shape - Finite 3))%fp
  else raise_domain_error function
         "skewness is undefined for shape <= 3, but got %1%." shape.

Definition kurtosis (dist : pareto_distribution) : result RealType :=
  let shape := shape dist in
  let function := "boost::math::pdf(const pareto_distribution<%1%>&, %1%)" in
  detail.check_pareto function (location dist) shape ;;
  if (shape >? Finite 4)%fp
  then Ok (Finite 3 * ((shape - Finite 2) *
                       (Finite 3 * shape * shape + shape + Finite 2)) /
           (shape * (shape - Finite 3) * (shape - Finite 4)))%fp
  else raise_domain_error function
         "kurtosis_excess is undefined for shape <= 4, but got %1%." shape.

Definition kurtosis_excess (dist : pareto_distribution) : result RealType :=
  let shape := shape dist in
  let function := "boost::math::pdf(const pareto_distribution<%1%>&, %1%)" in
  detail.check_pareto function (location dist) shape ;;
  if (shape >? Finite 4)%fp
  then Ok (Finite 6 * ((shape * shape * shape) + (shape * shape)
                       - Finite 6 * shape - Finite 2) /
           (shape * (shape - Finite 3) * (shape - Finite 4)))%fp
  else raise_domain_error function
         "kurtosis_excess is undefined for shape <= 4, but got %1%." shape.

(** A distribution with a finite, positive location and shape. *)
Definition pareto (l s : R) : pareto_distribution :=
  {| m_location := Finite l; m_shape := Finite s |}.

Definition valid_parameters (dist : pareto_distribution) : bool :=
  isfinite (location dist) && (location dist >? Finite 0)%fp &&
  isfinite (shape dist) && (shape dist >? Finite 0)%fp.

End Pareto.

(** Validity of the call arguments, as the two argument checkers decide it. *)
Definition valid_x (x : RealType) : bool :=
  isfinite x && (x >? Finite 0)%fp.

Definition valid_probability (p : RealType) : bool :=
  isfinite p && (Finite 0 <=? p)%fp && (p <=? Finite 1)%fp.

(** [same_error r r']: both outcomes are errors, with the same function name,
    message and offending value. *)
Definition same_error {A B : Type} (r : result A) (r' : result B) : Prop :=
  match r, r' with
  | DomainError f m v, DomainError f' m' v' => f = f' /\ m = m' /\ v = v'
  | _, _ => False
  end.

(** The largest finite [double], an instance of [max_value]. *)
Definition double_max_value : RealType :=
  Finite (IZR (2 ^ 1024 - 2 ^ 971)).

(** * The header at [RealType = double]

    The second instance is the one the header names itself
    ([typedef pareto_distribution<double> pareto]): values are IEEE 754
    binary64 numbers, and [+], [-], [*], [/], [sqrt] and the comparisons
    are the primitive operations on them, with their rounding, overflow
    and underflow.  [std::pow] and [powm1] are library code outside the
    header; they are parameters of the entry points that call them. *)

Module Double.

Local Open Scope float_scope.

Definition RealType : Type := float.

Definition isfinite (x : RealType) : bool :=
  match classify x with
  | PInf | NInf | FloatClass.NaN => false
  | _ => true
  end.

(** [tools::max_value<double>()], the largest finite binary64 number. *)
Definition max_value : RealType := 0x1.fffffffffffffp+1023.

Inductive result (A : Type) : Type :=
| Ok (a : A)
| DomainError (function message : string) (val : RealType).

Arguments Ok {A} a.
Arguments DomainError {A} function message val.

Definition bind {A B : Type} (r : result A) (k : A -> result B) : result B :=
  match r with
  | Ok a => k a
  | DomainError f m v => DomainError f m v
  end.

Declare Scope double_scope.
Delimit Scope double_scope with double.
Notation "x <- r ;; k" := (bind r (fun x => k))
  (at level 61, r at next level, right associativity) : double_scope.
Notation "r ;; k" := (bind r (fun _ => k))
  (at level 61, right associativity) : double_scope.
Local Open Scope double_scope.

Definition raise_domain_error {A : Type}
    (function message : string) (val : RealType) : result A :=
  DomainError function message val.

Definition is_domain_error {A : Type} (r : result A) : bool :=
  match r with
  | Ok _ => false
  | DomainError _ _ _ => true
  end.

Module detail.

Definition check_pareto_location (function : string) (location : RealType)
    : result unit :=
  if isfinite location then
    if 0 <? location then Ok tt
    else raise_domain_error function
           "Location parameter is %1%, but must be > 0!" location
  else raise_domain_error function
         "Location parameter is %1%, but must be finite!" location.

Definition check_pareto_shape (function : string) (shape : RealType)
    : result unit :=
  if isfinite shape then
    if 0 <? shape then Ok tt
    else raise_domain_error function
           "Shape parameter is %1%, but must be > 0!" shape
  else raise_domain_error function
         "Shape parameter is %1%, but must be finite!" shape.

Definition check_pareto_x (function : string) (x : RealType) : result unit :=
  if isfinite x then
    if 0 <? x then Ok tt
    else raise_domain_error function
           "x parameter is %1%, but must be > 0 !" x
  else raise_domain_error function
         "x parameter is %1%, but must be finite!" x.

Definition check_pareto (function : string) (location shape : RealType)
    : result unit :=
  check_pareto_location function location ;;
  check_pareto_shape function shape.

(** Modelled from the spec: [check_probability] lives in
    detail/common_error_handling.hpp, which is not part of the sources at
    hand.  The probability must be finite and within [0, 1]; otherwise a
    domain error describing the violated bound is raised. *)
Definition check_probability (function : string) (prob : RealType)
    : result unit :=
  if (prob <? 0) || (1 <? prob) || negb (isfinite prob)
  then raise_domain_error function
         "Probability argument is %1%, but must be >= 0 and <= 1 !" prob
  else Ok tt.

End detail.

Record pareto_distribution : Type := {
  m_location : RealType;  (* distribution location (xm) *)
  m_shape : RealType      (* distribution shape (k) *)
}.

Definition location (dist : pareto_distribution) : RealType := m_location dist.
Definition shape (dist : pareto_distribution) : RealType := m_shape dist.

Record complemented2_type : Type := complement {
  c_dist : pareto_distribution;
  c_param : RealType
}.

Definition support (dist : pareto_distribution) : RealType * RealType :=
  (location dist, max_value).

Section Library.

(** [std::pow] of <cmath> and [boost::math::powm1] ([powm1 a z] evaluates
    [a^z - 1]); neither is part of the sources at hand. *)
Variable pow : RealType -> RealType -> RealType.
Variable powm1 : RealType -> RealType -> RealType.

Definition pdf (dist : pareto_distribution) (x : RealType) : result RealType :=
  let function := "boost::math::pdf(const pareto_distribution<%1%>&, %1%)" in
  let location := location dist in
  let shape := shape dist in
  detail.check_pareto_x function x ;;
  detail.check_pareto function location shape ;;
  if x <? location then Ok 0
  else Ok (shape * pow location shape / pow x (shape + 1)).

Definition cdf (dist : pareto_distribution) (x : RealType) : result RealType :=
  let function := "boost::math::cdf(const pareto_distribution<%1%>&, %1%)" in
  let location := location dist in
  let shape := shape dist in
  detail.check_pareto_x function x ;;
  detail.check_pareto function location shape ;;
  if x <=? location then Ok 0
  else Ok (- powm1 (location / x) shape).

Definition quantile (dist : pareto_distribution) (p : RealType)
    : result RealType :=
  let function :=
    "boost::math::quantile(const pareto_distribution<%1%>&, %1%)" in
  let location := location dist in
  let shape := shape dist in
  detail.check_probability function p ;;
  detail.check_pareto function location shape ;;
  if p =? 0 then Ok location
  else if p =? 1 then Ok max_value
  else Ok (location / pow (1 - p) (1 / shape)).

Definition cdf_complement (c : complemented2_type) : result RealType :=
  let function := "boost::math::cdf(const pareto_distribution<%1%>&, %1%)" in
  let x := c_param c in
  let location := location (c_dist c) in
  let shape := shape (c_dist c) in
  detail.check_pareto_x function x ;;
  detail.check_pareto function location shape ;;
  if x <=? location then Ok 1
  else Ok (pow (location / x) shape).

Definition quantile_complement (c : complemented2_type) : result RealType :=
  let function :=
    "boost::math::quantile(const pareto_distribution<%1%>&, %1%)" in
  let q := c_param c in
  let location := location (c_dist c) in
  let shape := shape (c_dist c) in
  detail.check_probability function q ;;
  detail.check_pareto function location shape ;;
  if q =? 1 then Ok location
  else if q =? 0 then Ok max_value
  else Ok (location / pow q (1 / shape)).

End Library.

Definition mean (dist : pareto_distribution) : result RealType :=
  let function := "boost::math::mean(const pareto_distribution<%1%>&, %1%)" in
  detail.check_pareto function (location dist) (shape dist) ;;
  if 1 <? shape dist
  then Ok (shape dist * location dist / (shape dist - 1))
  else Ok max_value.

Definition variance (dist : pareto_distribution) : result RealType :=
  let location := location dist in
  let shape := shape dist in
  let function :=
    "boost::math::variance(const pareto_distribution<%1%>&, %1%)" in
  detail.check_pareto function location shape ;;
  if 2 <? shape
  then Ok ((location * location * shape) /
           ((shape - 1) * (shape - 1) * (shape - 2)))
  else raise_domain_error function
         "variance is undefined for shape <= 2, but got %1%." shape.

Definition skewness (dist : pareto_distribution) : result RealType :=
  let shape := shape dist in
  let function := "boost::math::pdf(const pareto_distribution<%1%>&, %1%)" in
  detail.check_pareto function (location dist) shape ;;
  if 3 <? shape
  then Ok (sqrt ((shape - 2) / shape) * 2 * (shape + 1) / (shape - 3))
  else raise_domain_error function
         "skewness is undefined for shape <= 3, but got %1%." shape.

Definition valid_parameters (dist : pareto_distribution) : bool :=
  isfinite (location dist) && (0 <? location dist) &&
  isfinite (shape dist) && (0 <? shape dist).

Definition valid_x (x : RealType) : bool := isfinite x && (0 <? x).

(** The values of [std::pow] that leave no room to a library: [pow(x, 0)]
    and [pow(1, y)] are 1 (Annex F of the C standard), [pow(x, 1)] is [x],
    and [pow(x, 2)] is the product [x * x] rounded once.  At other
    arguments this function is not-a-number and stands for nothing; it
    serves to evaluate the entry points at arguments of these four kinds. *)
Definition pow_known (x y : RealType) : RealType :=
  if y =? 0 then 1
  else if x =? 1 then 1
  else if y =? 1 then x
  else if y =? 2 then x * x
  else nan.

(** [a^z - 1] over [pow_known], to evaluate [cdf] at concrete arguments. *)
Definition powm1_known (a z : RealType) : RealType := pow_known a z - 1.

End Double.

(** * Properties *)

(** ** Comparisons and arithmetic on finite values *)

Ltac decide_real :=
  repeat match goal with
  | |- context [Rlt_dec ?a ?b] => destruct (Rlt_dec a b); try lra
  | |- context [Rle_dec ?a ?b] => destruct (Rle_dec a b); try lra
  | |- context [Req_dec_T ?a ?b] => destruct (Req_dec_T a b); try lra
  end.

Lemma Flt_true (a b : R) : a < b -> (Finite a <? Finite b)%fp = true.
Proof. intros; cbn; now decide_real. Qed.

Lemma Flt_false (a b : R) : b <= a -> (Finite a <? Finite b)%fp = false.
Proof. intros; cbn; now decide_real. Qed.

Lemma Fle_true (a b : R) : a <= b -> (Finite a <=? Finite b)%fp = true.
Proof. intros; cbn; now decide_real. Qed.

Lemma Fle_false (a b : R) : b < a -> (Finite a <=? Finite b)%fp = false.
Proof. intros; cbn; now decide_real. Qed.

Lemma Fgt_true (a b : R) : b < a -> (Finite a >? Finite b)%fp = true.
Proof. intros; cbn; now decide_real. Qed.

Lemma Fgt_false (a b : R) : a <= b -> (Finite a >? Finite b)%fp = false.
Proof. intros; cbn; now decide_real. Qed.

Lemma Feq_true (a b : R) : a = b -> (Finite a =? Finite b)%fp = true.
Proof. intros; cbn; now decide_real. Qed.

Lemma Feq_false (a b : R) : a <> b -> (Finite a =? Finite b)%fp = false.
Proof. intros; cbn; now decide_real. Qed.

Lemma Fdiv_finite (a b : R) :
  b <> 0 -> (Finite a / Finite b)%fp = Finite (a / b).
Proof. intros; cbn; now decide_real. Qed.

Lemma Rpower_one_base (b : R) : Rpower 1 b = 1.
Proof. unfold Rpower. now rewrite ln_1, Rmult_0_r, exp_0. Qed.

Lemma Rpower_pos (a b : R) : 0 < Rpower a b.
Proof. unfold Rpower. apply exp_pos. Qed.

(** On a positive finite base [std::pow] is the real power. *)
Lemma pow_positive (a b : R) :
  0 < a -> std.pow (Finite a) (Finite b) = Finite (Rpower a b).
Proof.
  intros Ha. unfold std.pow, Rsign. cbn.
  destruct (Req_dec_T b 0) as [-> | _].
  - now rewrite Rpower_O.
  - destruct (Req_dec_T a 1) as [-> | _].
    + now rewrite Rpower_one_base.
    + now decide_real.
Qed.

Lemma powm1_positive (a b : R) :
  0 < a -> powm1 (Finite a) (Finite b) = Finite (Rpower a b - 1).
Proof. intros Ha. unfold powm1. now rewrite pow_positive. Qed.

(** ** The checkers *)

Lemma check_pareto_x_valid (function : string) (x : RealType) :
  detail.check_pareto_x function x = Ok tt <-> valid_x x = true.
Proof.
  unfold detail.check_pareto_x, valid_x, raise_domain_error.
  destruct (isfinite x), (x >? Finite 0)%fp; cbn; split; congruence.
Qed.

Lemma check_pareto_valid (function : string) (dist : pareto_distribution) :
  detail.check_pareto function (location dist) (shape dist) = Ok tt <->
  valid_parameters dist = true.
Proof.
  unfold detail.check_pareto, detail.check_pareto_location,
    detail.check_pareto_shape, valid_parameters, raise_domain_error.
  destruct (isfinite (location dist)), (location dist >? Finite 0)%fp,
    (isfinite (shape dist)), (shape dist >? Finite 0)%fp;
    cbn; split; congruence.
Qed.

Lemma check_probability_valid (function : string) (p : RealType) :
  detail.check_probability function p = Ok tt <-> valid_probability p = true.
Proof.
  unfold detail.check_probability, valid_probability, raise_domain_error.
  destruct p as [r | | |]; cbn; try (split; congruence).
  decide_real; cbn; split; congruence.
Qed.

(** The valid distributions are exactly the [pareto l s] with [l] and [s]
    positive reals. *)
Lemma valid_parameters_pareto (dist : pareto_distribution) :
  valid_parameters dist = true <->
  exists l s : R, dist = pareto l s /\ 0 < l /\ 0 < s.
Proof.
  destruct dist as [loc sh]. unfold valid_parameters, pareto. cbn. split.
  - destruct loc as [l | | |], sh as [s | | |]; cbn; try discriminate;
      rewrite ?andb_false_r; try discriminate.
    decide_real; cbn; try discriminate.
    intros _. exists l, s. repeat split; lra.
  - intros (l & s & [= -> ->] & Hl & Hs). cbn. now decide_real.
Qed.

Lemma valid_x_finite (x : RealType) :
  valid_x x = true <-> exists r : R, x = Finite r /\ 0 < r.
Proof.
  unfold valid_x. split.
  - destruct x as [r | | |]; cbn; try discriminate.
    decide_real; try discriminate. intros _. now exists r.
  - intros (r & -> & Hr). cbn. now decide_real.
Qed.

Lemma check_pareto_ok (function : string) (l s : R) :
  0 < l -> 0 < s ->
  detail.check_pareto function (Finite l) (Finite s) = Ok tt.
Proof.
  intros Hl Hs.
  apply (check_pareto_valid function (pareto l s)), valid_parameters_pareto.
  now exists l, s.
Qed.

Lemma check_pareto_x_ok (function : string) (x : R) :
  0 < x -> detail.check_pareto_x function (Finite x) = Ok tt.
Proof.
  intros Hx. apply check_pareto_x_valid, valid_x_finite. now exists x.
Qed.

Lemma check_probability_ok (function : string) (p : R) :
  0 <= p <= 1 -> detail.check_probability function (Finite p) = Ok tt.
Proof.
  intros Hp. apply check_probability_valid. unfold valid_probability. cbn.
  now decide_real.
Qed.

(** ** The entry points on valid arguments *)

Section Properties.

Variable max_value : RealType.

(** Runs the checks of an entry point that is called on a valid
    distribution with a valid argument. *)
Ltac pass_checks :=
  unfold pareto, location, shape; cbn [m_location m_shape c_dist c_param];
  rewrite ?check_pareto_x_ok, ?check_probability_ok, ?check_pareto_ok
    by (assumption || lra);
  cbn [bind].

Lemma Fdiv_one (s : R) : 0 < s -> (Finite 1 / Finite s)%fp = Finite (1 / s).
Proof. intros Hs. apply Fdiv_finite. lra. Qed.

Lemma cdf_at_or_below (l s x : R) :
  0 < l -> 0 < s -> 0 < x -> x <= l ->
  cdf (pareto l s) (Finite x) = Ok (Finite 0).
Proof.
  intros Hl Hs Hx Hxl. unfold cdf. pass_checks. now rewrite Fle_true.
Qed.

Lemma cdf_above (l s x : R) :
  0 < l -> 0 < s -> l < x ->
  cdf (pareto l s) (Finite x) = Ok (Finite (1 - Rpower (l / x) s)).
Proof.
  intros Hl Hs Hxl. unfold cdf. pass_checks.
  rewrite Fle_false by assumption.
  rewrite Fdiv_finite by lra.
  rewrite powm1_positive by (apply Rdiv_lt_0_compat; lra).
  cbn. do 2 f_equal. lra.
Qed.

Lemma cdf_complement_at_or_below (l s x : R) :
  0 < l -> 0 < s -> 0 < x -> x <= l ->
  cdf_complement (complement (pareto l s) (Finite x)) = Ok (Finite 1).
Proof.
  intros Hl Hs Hx Hxl. unfold cdf_complement. pass_checks.
  now rewrite Fle_true.
Qed.

Lemma cdf_complement_above (l s x : R) :
  0 < l -> 0 < s -> l < x ->
  cdf_complement (complement (pareto l s) (Finite x)) =
  Ok (Finite (Rpower (l / x) s)).
Proof.
  intros Hl Hs Hxl. unfold cdf_complement. pass_checks.
  rewrite Fle_false by assumption.
  rewrite Fdiv_finite by lra.
  now rewrite pow_positive by (apply Rdiv_lt_0_compat; lra).
Qed.

Lemma pdf_below (l s x : R) :
  0 < l -> 0 < s -> 0 < x -> x < l ->
  pdf (pareto l s) (Finite x) = Ok (Finite 0).
Proof.
  intros Hl Hs Hx Hxl. unfold pdf. pass_checks. now rewrite Flt_true.
Qed.

Lemma pdf_at_or_above (l s x : R) :
  0 < l -> 0 < s -> l <= x ->
  pdf (pareto l s) (Finite x) =
  Ok (Finite (s * Rpower l s / Rpower x (s + 1))).
Proof.
  intros Hl Hs Hxl. assert (Hx : 0 < x) by lra. unfold pdf. pass_checks.
  rewrite Flt_false by assumption.
  rewrite !pow_positive by assumption.
  cbn [Fadd Fmul]. rewrite pow_positive by assumption.
  rewrite Fdiv_finite; [reflexivity |].
  pose proof (Rpower_pos x (s + 1)). lra.
Qed.

Lemma quantile_zero (l s : R) :
  0 < l -> 0 < s ->
  quantile max_value (pareto l s) (Finite 0) = Ok (Finite l).
Proof. intros Hl Hs. unfold quantile. pass_checks. now rewrite Feq_true. Qed.

Lemma quantile_one (l s : R) :
  0 < l -> 0 < s ->
  quantile max_value (pareto l s) (Finite 1) = Ok max_value.
Proof.
  intros Hl Hs. unfold quantile. pass_checks.
  rewrite Feq_false by lra. now rewrite Feq_true.
Qed.

Lemma quantile_interior (l s p : R) :
  0 < l -> 0 < s -> 0 < p < 1 ->
  quantile max_value (pareto l s) (Finite p) =
  Ok (Finite (l / Rpower (1 - p) (1 / s))).
Proof.
  intros Hl Hs Hp. unfold quantile. pass_checks.
  rewrite !Feq_false by lra. rewrite Fdiv_one by assumption.
  cbn [Fsub Fneg Fadd]. rewrite pow_positive by lra.
  rewrite Fdiv_finite; [reflexivity |].
  pose proof (Rpower_pos (1 + - p) (1 / s)). lra.
Qed.

Lemma quantile_complement_one (l s : R) :
  0 < l -> 0 < s ->
  quantile_complement max_value (complement (pareto l s) (Finite 1)) =
  Ok (Finite l).
Proof.
  intros Hl Hs. unfold quantile_complement. pass_checks.
  now rewrite Feq_true.
Qed.

Lemma quantile_complement_zero (l s : R) :
  0 < l -> 0 < s ->
  quantile_complement max_value (complement (pareto l s) (Finite 0)) =
  Ok max_value.
Proof.
  intros Hl Hs. unfold quantile_complement. pass_checks.
  rewrite Feq_false by lra. now rewrite Feq_true.
Qed.

Lemma quantile_complement_interior (l s q : R) :
  0 < l -> 0 < s -> 0 < q < 1 ->
  quantile_complement max_value (complement (pareto l s) (Finite q)) =
  Ok (Finite (l / Rpower q (1 / s))).
Proof.
  intros Hl Hs Hq. unfold quantile_complement. pass_checks.
  rewrite !Feq_false by lra. rewrite Fdiv_one by assumption.
  rewrite pow_positive by lra.
  rewrite Fdiv_finite; [reflexivity |].
  pose proof (Rpower_pos q (1 / s)). lra.
Qed.

Lemma mean_defined (l s : R) :
  0 < l -> 1 < s ->
  mean max_value (pareto l s) = Ok (Finite (s * l / (s - 1))).
Proof.
  intros Hl Hs. unfold mean. pass_checks.
  rewrite Fgt_true by assumption. cbn [Fsub Fneg Fadd Fmul].
  now rewrite Fdiv_finite by lra.
Qed.

Lemma mean_infinite (l s : R) :
  0 < l -> 0 < s -> s <= 1 ->
  mean max_value (pareto l s) = Ok max_value.
Proof.
  intros Hl Hs Hc. unfold mean. pass_checks. now rewrite Fgt_false.
Qed.

Lemma variance_defined (l s : R) :
  0 < l -> 2 < s ->
  variance (pareto l s) = Ok (Finite (l ^ 2 * s / ((s - 1) ^ 2 * (s - 2)))).
Proof.
  intros Hl Hs. unfold variance. pass_checks.
  rewrite Fgt_true by assumption. cbn [Fsub Fneg Fadd Fmul].
  rewrite Fdiv_finite; [do 2 f_equal; field; lra |].
  apply Rgt_not_eq. repeat apply Rmult_lt_0_compat; lra.
Qed.

Lemma variance_undefined (l s : R) :
  0 < l -> 0 < s -> s <= 2 ->
  variance (pareto l s) =
  DomainError "boost::math::variance(const pareto_distribution<%1%>&, %1%)"
    "variance is undefined for shape <= 2, but got %1%." (Finite s).
Proof.
  intros Hl Hs Hc. unfold variance. pass_checks. now rewrite Fgt_false.
Qed.

Lemma median_formula (l s : R) :
  0 < l -> 0 < s ->
  median (pareto l s) = Ok (Finite (l * Rpower 2 (1 / s))).
Proof.
  intros Hl Hs. unfold median. pass_checks.
  rewrite Fdiv_one by assumption. now rewrite pow_positive by lra.
Qed.

Lemma skewness_formula (l s : R) :
  0 < l -> 3 < s ->
  skewness (pareto l s) =
  Ok (Finite (R_sqrt.sqrt ((s - 2) / s) * 2 * (s + 1) / (s - 3))).
Proof.
  intros Hl Hs. unfold skewness. pass_checks.
  rewrite Fgt_true by assumption. cbn [Fsub Fneg Fadd].
  rewrite Fdiv_finite by lra. unfold std.sqrt.
  destruct (Rle_dec 0 _) as [_ | Hn].
  - cbn [Fmul]. now rewrite Fdiv_finite by lra.
  - exfalso. apply Hn. apply Rlt_le, Rdiv_lt_0_compat; lra.
Qed.

Lemma kurtosis_formula (l s : R) :
  0 < l -> 4 < s ->
  kurtosis (pareto l s) =
  Ok (Finite (3 * (s - 2) * (3 * s ^ 2 + s + 2) / (s * (s - 3) * (s - 4)))).
Proof.
  intros Hl Hs. unfold kurtosis. pass_checks.
  rewrite Fgt_true by assumption. cbn [Fsub Fneg Fadd Fmul].
  rewrite Fdiv_finite; [do 2 f_equal; field; lra |].
  apply Rgt_not_eq. repeat apply Rmult_lt_0_compat; lra.
Qed.

Lemma kurtosis_undefined (l s : R) :
  0 < l -> 0 < s -> s <= 4 ->
  kurtosis (pareto l s) =
  DomainError "boost::math::pdf(const pareto_distribution<%1%>&, %1%)"
    "kurtosis_excess is undefined for shape <= 4, but got %1%." (Finite s).
Proof.
  intros Hl Hs Hc. unfold kurtosis. pass_checks. now rewrite Fgt_false.
Qed.

Lemma kurtosis_excess_formula (l s : R) :
  0 < l -> 4 < s ->
  kurtosis_excess (pareto l s) =
  Ok (Finite (6 * (s ^ 3 + s ^ 2 - 6 * s - 2) / (s * (s - 3) * (s - 4)))).
Proof.
  intros Hl Hs. unfold kurtosis_excess. pass_checks.
  rewrite Fgt_true by assumption. cbn [Fsub Fneg Fadd Fmul].
  rewrite Fdiv_finite; [do 2 f_equal; field; lra |].
  apply Rgt_not_eq. repeat apply Rmult_lt_0_compat; lra.
Qed.

(** ** Validation order *)

(** A failed first step is the outcome of the whole sequence. *)
Lemma bind_error_same {A B : Type} (r : result A) (k : A -> result B) :
  is_domain_error r = true -> same_error (bind r k) r.
Proof. destruct r; cbn; [discriminate | now repeat split]. Qed.

Lemma check_pareto_invalid (function : string) (dist : pareto_distribution) :
  valid_parameters dist = false ->
  is_domain_error
    (detail.check_pareto function (location dist) (shape dist)) = true.
Proof.
  intros Hv.
  destruct (detail.check_pareto function (location dist) (shape dist))
    as [[] | f m v] eqn:E; [| reflexivity].
  apply check_pareto_valid in E. congruence.
Qed.

Lemma check_pareto_x_invalid (function : string) (x : RealType) :
  valid_x x = false ->
  is_domain_error (detail.check_pareto_x function x) = true.
Proof.
  intros Hv.
  destruct (detail.check_pareto_x function x) as [[] | f m v] eqn:E;
    [| reflexivity].
  apply check_pareto_x_valid in E. congruence.
Qed.

Lemma check_probability_invalid (function : string) (p : RealType) :
  valid_probability p = false ->
  is_domain_error (detail.check_probability function p) = true.
Proof.
  intros Hv.
  destruct (detail.check_probability function p) as [[] | f m v] eqn:E;
    [| reflexivity].
  apply check_probability_valid in E. congruence.
Qed.

(** C7, amended: [mean], [median], [variance], [skewness], [kurtosis] and
    [kurtosis_excess] validate location and shape before their formula: on
    a distribution with an invalid location or shape each of them fails
    with the error of [check_pareto].  [mode] validates nothing and returns
    the stored location. *)
Theorem moments_validate_except_mode (dist : pareto_distribution) :
  valid_parameters dist = false ->
  let check function :=
    detail.check_pareto function (location dist) (shape dist) in
  same_error (mean max_value dist)
    (check "boost::math::mean(const pareto_distribution<%1%>&, %1%)") /\
  same_error (median dist)
    (check "boost::math::median(const pareto_distribution<%1%>&, %1%)") /\
  same_error (variance dist)
    (check "boost::math::variance(const pareto_distribution<%1%>&, %1%)") /\
  same_error (skewness dist)
    (check "boost::math::pdf(const pareto_distribution<%1%>&, %1%)") /\
  same_error (kurtosis dist)
    (check "boost::math::pdf(const pareto_distribution<%1%>&, %1%)") /\
  same_error (kurtosis_excess dist)
    (check "boost::math::pdf(const pareto_distribution<%1%>&, %1%)") /\
  mode dist = Ok (location dist).
Proof.
  intros Hv check.
  repeat split; apply bind_error_same, check_pareto_invalid, Hv.
Qed.

(** C8, amended: [pdf], [cdf], the complemented cdf, [quantile] and the
    complemented quantile check the call argument first and location and
    shape second: when the argument is invalid the error reported is the
    argument's, whatever the distribution parameters are. *)
Theorem argument_checked_first (dist : pareto_distribution) (x p : RealType) :
  valid_x x = false ->
  valid_probability p = false ->
  same_error (pdf dist x)
    (detail.check_pareto_x
       "boost::math::pdf(const pareto_distribution<%1%>&, %1%)" x) /\
  same_error (cdf dist x)
    (detail.check_pareto_x
       "boost::math::cdf(const pareto_distribution<%1%>&, %1%)" x) /\
  same_error (cdf_complement (complement dist x))
    (detail.check_pareto_x
       "boost::math::cdf(const pareto_distribution<%1%>&, %1%)" x) /\
  same_error (quantile max_value dist p)
    (detail.check_probability
       "boost::math::quantile(const pareto_distribution<%1%>&, %1%)" p) /\
  same_error (quantile_complement max_value (complement dist p))
    (detail.check_probability
       "boost::math::quantile(const pareto_distribution<%1%>&, %1%)" p).
Proof.
  intros Hx Hp.
  repeat split; apply bind_error_same;
    (now apply check_pareto_x_invalid) ||
    (now apply check_probability_invalid).
Qed.

(** With a valid argument, the error of invalid parameters is the one
    reported. *)
Lemma parameters_checked_second (dist : pareto_distribution) (x : RealType) :
  valid_x x = true ->
  valid_parameters dist = false ->
  same_error (pdf dist x)
    (detail.check_pareto
       "boost::math::pdf(const pareto_distribution<%1%>&, %1%)"
       (location dist) (shape dist)) /\
  same_error (cdf dist x)
    (detail.check_pareto
       "boost::math::cdf(const pareto_distribution<%1%>&, %1%)"
       (location dist) (shape dist)).
Proof.
  intros Hx Hv. unfold pdf, cdf.
  split;
    (rewrite (proj2 (check_pareto_x_valid _ x) Hx); cbn [bind];
     apply bind_error_same, check_pareto_invalid, Hv).
Qed.

(** Within [check_pareto] the location is checked before the shape. *)
Lemma location_checked_before_shape
    (function : string) (location shape : RealType) :
  is_domain_error (detail.check_pareto_location function location) = true ->
  same_error (detail.check_pareto function location shape)
    (detail.check_pareto_location function location).
Proof. apply bind_error_same. Qed.

(** ** Kurtosis *)

(** C9, at its failing input: with location 1 and shape 4, [kurtosis]
    raises a domain error whose message names [kurtosis_excess]; the text
    "kurtosis is undefined for shape <= 4" does not occur in it. *)
Theorem kurtosis_error_message :
  kurtosis (pareto 1 4) =
  DomainError "boost::math::pdf(const pareto_distribution<%1%>&, %1%)"
    "kurtosis_excess is undefined for shape <= 4, but got %1%." (Finite 4) /\
  option_map (contains "kurtosis is undefined for shape <= 4")
    (message_of (kurtosis (pareto 1 4))) = Some false.
Proof.
  assert (H : kurtosis (pareto 1 4) =
    DomainError "boost::math::pdf(const pareto_distribution<%1%>&, %1%)"
      "kurtosis_excess is undefined for shape <= 4, but got %1%." (Finite 4))
    by (apply kurtosis_undefined; lra).
  split; [exact H |]. rewrite H. reflexivity.
Qed.

End Properties.

(** ** The constructor at concrete arguments *)

(** The constructor reports a location of -1 as not positive and keeps the
    parameters it was given. *)
Example construct_negative_location :
  make_pareto_distribution (Finite (-1)) (Finite 1) =
  (pareto (-1) 1,
   DomainError "boost::math::pareto_distribution<%1%>::pareto_distribution"
     "Location parameter is %1%, but must be > 0!" (Finite (-1))).
Proof.
  unfold make_pareto_distribution, pareto. f_equal.
  unfold detail.check_pareto, detail.check_pareto_location. cbn.
  now decide_real.
Qed.

(** The constructor reports a shape that is not a number as not finite. *)
Example construct_nan_shape :
  snd (make_pareto_distribution (Finite 1) NaN) =
  DomainError "boost::math::pareto_distribution<%1%>::pareto_distribution"
    "Shape parameter is %1%, but must be finite!" NaN.
Proof.
  unfold make_pareto_distribution, detail.check_pareto,
    detail.check_pareto_location. cbn.
  now decide_real.
Qed.

(** ** Instances *)

(** C7 as stated fails: with location -1 the parameters are invalid, yet
    [mode] raises no error and returns -1. *)
Lemma mode_skips_validation :
  valid_parameters (pareto (-1) 1) = false /\
  is_domain_error (mode (pareto (-1) 1)) = false /\
  mode (pareto (-1) 1) = Ok (Finite (-1)).
Proof.
  repeat split. unfold valid_parameters. cbn. now decide_real.
Qed.

Lemma moments_validate_except_mode_witness :
  valid_parameters {| m_location := NaN; m_shape := Finite 1 |} = false /\
  same_error (median {| m_location := NaN; m_shape := Finite 1 |})
    (detail.check_pareto
       "boost::math::median(const pareto_distribution<%1%>&, %1%)"
       NaN (Finite 1)) /\
  mode {| m_location := NaN; m_shape := Finite 1 |} = Ok NaN.
Proof.
  destruct (moments_validate_except_mode double_max_value
              {| m_location := NaN; m_shape := Finite 1 |} eq_refl)
    as (_ & Hmedian & _ & _ & _ & _ & Hmode).
  repeat split; assumption.
Defined.

(** C8 as stated fails: with location -1 and x = -2 both are invalid, the
    parameter check alone would report the location, and [pdf] reports
    x. *)
Lemma pdf_reports_argument_error :
  detail.check_pareto
    "boost::math::pdf(const pareto_distribution<%1%>&, %1%)"
    (Finite (-1)) (Finite 1) =
  DomainError "boost::math::pdf(const pareto_distribution<%1%>&, %1%)"
    "Location parameter is %1%, but must be > 0!" (Finite (-1)) /\
  pdf (pareto (-1) 1) (Finite (-2)) =
  DomainError "boost::math::pdf(const pareto_distribution<%1%>&, %1%)"
    "x parameter is %1%, but must be > 0 !" (Finite (-2)).
Proof.
  split.
  - unfold detail.check_pareto, detail.check_pareto_location. cbn.
    now decide_real.
  - unfold pdf, detail.check_pareto_x. cbn. now decide_real.
Qed.

Lemma argument_checked_first_witness :
  same_error (pdf (pareto 2 3) NaN)
    (detail.check_pareto_x
       "boost::math::pdf(const pareto_distribution<%1%>&, %1%)" NaN) /\
  same_error (quantile double_max_value (pareto 2 3) PosInf)
    (detail.check_probability
       "boost::math::quantile(const pareto_distribution<%1%>&, %1%)" PosInf).
Proof.
  destruct (argument_checked_first double_max_value (pareto 2 3) NaN PosInf
              eq_refl eq_refl)
    as (Hpdf & _ & _ & Hq & _).
  split; assumption.
Defined.

(** * Further properties of the header *)

(** ** The checkers *)

Lemma bind_error {A B : Type} (r : result A) (k : A -> result B) :
  is_domain_error r = true -> is_domain_error (bind r k) = true.
Proof. destruct r; cbn; [discriminate | reflexivity]. Qed.

Lemma valid_probability_finite (p : RealType) :
  valid_probability p = true <-> exists r : R, p = Finite r /\ 0 <= r <= 1.
Proof.
  unfold valid_probability. split.
  - destruct p as [r | | |]; cbn; try discriminate.
    decide_real; cbn; try discriminate. intros _. exists r. split; [easy | lra].
  - intros (r & -> & Hr). cbn. now decide_real.
Qed.

(** X1: each of the three checkers accepts exactly the finite values above
    zero.  A finite value that is zero or negative is reported with the
    "must be > 0" message, a value that is not finite (positive infinity
    included) with the "must be finite" message; the error carries the
    caller's function name and the offending value. *)
Theorem checkers_verdict (function : string) (v : RealType) :
  let verdict (positive finite : string) : result unit :=
    match v with
    | Finite r =>
        if Rlt_dec 0 r then Ok tt else DomainError function positive v
    | _ => DomainError function finite v
    end in
  detail.check_pareto_location function v =
    verdict "Location parameter is %1%, but must be > 0!"
            "Location parameter is %1%, but must be finite!" /\
  detail.check_pareto_shape function v =
    verdict "Shape parameter is %1%, but must be > 0!"
            "Shape parameter is %1%, but must be finite!" /\
  detail.check_pareto_x function v =
    verdict "x parameter is %1%, but must be > 0 !"
            "x parameter is %1%, but must be finite!".
Proof.
  unfold detail.check_pareto_location, detail.check_pareto_shape,
    detail.check_pareto_x, raise_domain_error.
  destruct v as [r | | |]; cbn; repeat split; now decide_real.
Qed.

(** X2: [check_pareto] checks the location before the shape: an invalid
    location is the error reported whatever the shape is, and with a valid
    location the outcome is that of the shape check. *)
Theorem check_pareto_order (function : string) (l s : RealType) :
  (is_domain_error (detail.check_pareto_location function l) = true ->
   same_error (detail.check_pareto function l s)
     (detail.check_pareto_location function l)) /\
  (detail.check_pareto_location function l = Ok tt ->
   detail.check_pareto function l s = detail.check_pareto_shape function s).
Proof.
  split.
  - apply bind_error_same.
  - intros H. unfold detail.check_pareto. now rewrite H.
Qed.

Section Further.

Variable max_value : RealType.

(** ** Where the entry points fail *)

Lemma pdf_value (l s x : R) :
  0 < l -> 0 < s -> 0 < x ->
  pdf (pareto l s) (Finite x) =
  Ok (Finite (if Rlt_dec x l then 0
              else s * Rpower l s / Rpower x (s + 1))).
Proof.
  intros Hl Hs Hx. destruct (Rlt_dec x l).
  - now apply pdf_below.
  - apply pdf_at_or_above; lra.
Qed.

Lemma cdf_value (l s x : R) :
  0 < l -> 0 < s -> 0 < x ->
  cdf (pareto l s) (Finite x) =
  Ok (Finite (if Rle_dec x l then 0 else 1 - Rpower (l / x) s)).
Proof.
  intros Hl Hs Hx. destruct (Rle_dec x l).
  - now apply cdf_at_or_below.
  - apply cdf_above; lra.
Qed.

Lemma cdf_complement_value (l s x : R) :
  0 < l -> 0 < s -> 0 < x ->
  cdf_complement (complement (pareto l s) (Finite x)) =
  Ok (Finite (if Rle_dec x l then 1 else Rpower (l / x) s)).
Proof.
  intros Hl Hs Hx. destruct (Rle_dec x l).
  - now apply cdf_complement_at_or_below.
  - apply cdf_complement_above; lra.
Qed.

(** Splits on the validity of the argument and of the parameters and
    names the reals behind the valid ones. *)
Ltac split_validity dist x Hx Hv :=
  destruct (valid_x x) eqn:Hx;
  [ apply valid_x_finite in Hx; destruct Hx as (? & -> & Hx) |];
  (destruct (valid_parameters dist) eqn:Hv;
   [ apply valid_parameters_pareto in Hv;
     destruct Hv as (? & ? & -> & ? & ?) |]).

(** X4: [pdf], [cdf] and the complemented cdf raise a domain error
    exactly when the argument or a parameter is not finite and positive;
    in every other case they return a value. *)
Theorem density_error_domain (dist : pareto_distribution) (x : RealType) :
  is_domain_error (pdf dist x) = negb (valid_x x && valid_parameters dist) /\
  is_domain_error (cdf dist x) = negb (valid_x x && valid_parameters dist) /\
  is_domain_error (cdf_complement (complement dist x)) =
    negb (valid_x x && valid_parameters dist).
Proof.
  split_validity dist x Hx Hv; cbn [andb negb].
  - now rewrite pdf_value, cdf_value, cdf_complement_value.
  - assert (Hc : forall f, detail.check_pareto_x f (Finite x0) = Ok tt)
      by (intros f; now apply check_pareto_x_ok).
    unfold pdf, cdf, cdf_complement. cbn [c_dist c_param].
    rewrite !Hc. cbn [bind].
    repeat split; apply bind_error, check_pareto_invalid, Hv.
  - repeat split; apply bind_error, check_pareto_x_invalid, Hx.
  - repeat split; apply bind_error, check_pareto_x_invalid, Hx.
Qed.

Lemma quantile_value (l s p : R) :
  0 < l -> 0 < s -> 0 <= p <= 1 ->
  quantile max_value (pareto l s) (Finite p) =
  Ok (if Req_dec_T p 0 then Finite l
      else if Req_dec_T p 1 then max_value
      else Finite (l / Rpower (1 - p) (1 / s))).
Proof.
  intros Hl Hs Hp.
  destruct (Req_dec_T p 0) as [-> | H0]; [now apply quantile_zero |].
  destruct (Req_dec_T p 1) as [-> | H1]; [now apply quantile_one |].
  apply quantile_interior; lra.
Qed.

Lemma quantile_complement_value (l s q : R) :
  0 < l -> 0 < s -> 0 <= q <= 1 ->
  quantile_complement max_value (complement (pareto l s) (Finite q)) =
  Ok (if Req_dec_T q 1 then Finite l
      else if Req_dec_T q 0 then max_value
      else Finite (l / Rpower q (1 / s))).
Proof.
  intros Hl Hs Hq.
  destruct (Req_dec_T q 1) as [-> | H1];
    [now apply quantile_complement_one |].
  destruct (Req_dec_T q 0) as [-> | H0];
    [now apply quantile_complement_zero |].
  apply quantile_complement_interior; lra.
Qed.

(** X5: [quantile] and the complemented quantile raise a domain error
    exactly when the probability is not a finite value of [0, 1] or a
    parameter is not finite and positive; the two end points 0 and 1 are
    accepted. *)
Theorem quantile_error_domain (dist : pareto_distribution) (p : RealType) :
  is_domain_error (quantile max_value dist p) =
    negb (valid_probability p && valid_parameters dist) /\
  is_domain_error (quantile_complement max_value (complement dist p)) =
    negb (valid_probability p && valid_parameters dist).
Proof.
  destruct (valid_probability p) eqn:Hp.
  - apply valid_probability_finite in Hp. destruct Hp as (r & -> & Hr).
    destruct (valid_parameters dist) eqn:Hv; cbn [andb negb].
    + apply valid_parameters_pareto in Hv.
      destruct Hv as (l & s & -> & Hl & Hs).
      rewrite quantile_value, quantile_complement_value by assumption.
      split; reflexivity.
    + assert (Hc : forall f, detail.check_probability f (Finite r) = Ok tt)
        by (intros f; now apply check_probability_ok).
      unfold quantile, quantile_complement. cbn [c_dist c_param].
      rewrite !Hc. cbn [bind].
      split; apply bind_error, check_pareto_invalid, Hv.
  - cbn [andb negb].
    split; apply bind_error, check_probability_invalid, Hp.
Qed.

Ltac pass_checks :=
  unfold pareto, location, shape; cbn [m_location m_shape c_dist c_param];
  rewrite ?check_pareto_x_ok, ?check_probability_ok, ?check_pareto_ok
    by (assumption || lra);
  cbn [bind].

Lemma skewness_undefined (l s : R) :
  0 < l -> 0 < s -> s <= 3 ->
  skewness (pareto l s) =
  DomainError "boost::math::pdf(const pareto_distribution<%1%>&, %1%)"
    "skewness is undefined for shape <= 3, but got %1%." (Finite s).
Proof.
  intros Hl Hs Hc. unfold skewness. pass_checks. now rewrite Fgt_false.
Qed.

Lemma kurtosis_excess_undefined (l s : R) :
  0 < l -> 0 < s -> s <= 4 ->
  kurtosis_excess (pareto l s) =
  DomainError "boost::math::pdf(const pareto_distribution<%1%>&, %1%)"
    "kurtosis_excess is undefined for shape <= 4, but got %1%." (Finite s).
Proof.
  intros Hl Hs Hc. unfold kurtosis_excess. pass_checks.
  now rewrite Fgt_false.
Qed.

(** X6: where the moments fail.  [mean] and [median] raise a domain error
    exactly on invalid parameters; [variance], [skewness], [kurtosis] and
    [kurtosis_excess] raise one exactly when the parameters are invalid or
    the shape is not above 2, 3, 4 and 4; [mode] never raises one. *)
Theorem moments_error_domain (dist : pareto_distribution) :
  is_domain_error (mean max_value dist) = negb (valid_parameters dist) /\
  is_domain_error (median dist) = negb (valid_parameters dist) /\
  is_domain_error (variance dist) =
    negb (valid_parameters dist && (shape dist >? Finite 2)%fp) /\
  is_domain_error (skewness dist) =
    negb (valid_parameters dist && (shape dist >? Finite 3)%fp) /\
  is_domain_error (kurtosis dist) =
    negb (valid_parameters dist && (shape dist >? Finite 4)%fp) /\
  is_domain_error (kurtosis_excess dist) =
    negb (valid_parameters dist && (shape dist >? Finite 4)%fp) /\
  is_domain_error (mode dist) = false.
Proof.
  destruct (valid_parameters dist) eqn:Hv; cbn [andb negb].
  - apply valid_parameters_pareto in Hv.
    destruct Hv as (l & s & -> & Hl & Hs).
    cbn [shape pareto m_shape Fgt Flt].
    split.
    { destruct (Rlt_dec 1 s).
      - now rewrite mean_defined.
      - now rewrite mean_infinite by lra. }
    split; [now rewrite median_formula |].
    split.
    { destruct (Rlt_dec 2 s).
      - now rewrite variance_defined.
      - now rewrite variance_undefined by lra. }
    split.
    { destruct (Rlt_dec 3 s).
      - now rewrite skewness_formula.
      - now rewrite skewness_undefined by lra. }
    split.
    { destruct (Rlt_dec 4 s).
      - now rewrite kurtosis_formula.
      - now rewrite kurtosis_undefined by lra. }
    split; [| reflexivity].
    destruct (Rlt_dec 4 s).
    + now rewrite kurtosis_excess_formula.
    + now rewrite kurtosis_excess_undefined by lra.
  - repeat split; apply bind_error, check_pareto_invalid, Hv.
Qed.

(** X7: with a valid argument and an invalid location or shape, each of
    the five entry points that take an argument fails with the error of
    the parameter check, raised under the entry point's own function
    name. *)
Theorem parameter_error_reported
    (dist : pareto_distribution) (x p : RealType) :
  valid_x x = true ->
  valid_probability p = true ->
  valid_parameters dist = false ->
  let check function :=
    detail.check_pareto function (location dist) (shape dist) in
  same_error (pdf dist x)
    (check "boost::math::pdf(const pareto_distribution<%1%>&, %1%)") /\
  same_error (cdf dist x)
    (check "boost::math::cdf(const pareto_distribution<%1%>&, %1%)") /\
  same_error (cdf_complement (complement dist x))
    (check "boost::math::cdf(const pareto_distribution<%1%>&, %1%)") /\
  same_error (quantile max_value dist p)
    (check "boost::math::quantile(const pareto_distribution<%1%>&, %1%)") /\
  same_error (quantile_complement max_value (complement dist p))
    (check "boost::math::quantile(const pareto_distribution<%1%>&, %1%)").
Proof.
  intros Hx Hp Hv check.
  assert (Hcx : forall f, detail.check_pareto_x f x = Ok tt)
    by (intros f; now apply check_pareto_x_valid).
  assert (Hcp : forall f, detail.check_probability f p = Ok tt)
    by (intros f; now apply check_probability_valid).
  unfold pdf, cdf, cdf_complement, quantile, quantile_complement.
  cbn [c_dist c_param]. rewrite !Hcx, !Hcp. cbn [bind].
  repeat split; apply bind_error_same, check_pareto_invalid, Hv.
Qed.

(** ** Quantiles *)


(** ** Moments *)

(** X21: whenever [kurtosis] fails, [kurtosis_excess] fails with the very
    same error: the same function name, the same message and the same
    value, so the error does not tell which of the two was called. *)
Theorem kurtosis_errors_coincide (dist : pareto_distribution) :
  is_domain_error (kurtosis dist) = true ->
  kurtosis dist = kurtosis_excess dist.
Proof.
  unfold kurtosis, kurtosis_excess.
  destruct (detail.check_pareto _ (location dist) (shape dist))
    as [[] | f m v]; cbn [bind]; [| reflexivity].
  destruct (shape dist >? Finite 4)%fp; [discriminate | reflexivity].
Qed.

Lemma Flt_inv (a b : R) : (Finite a <? Finite b)%fp = true -> a < b.
Proof. cbn. destruct (Rlt_dec a b); [trivial | discriminate]. Qed.

(** X24: on a valid distribution, an argument strictly between the lower
    end of [range] and the lower end of [support] is accepted, and both
    [pdf] and [cdf] are 0 there. *)
Theorem below_support_is_zero (l s x : R) :
  0 < l -> 0 < s ->
  (fst (range max_value (pareto l s)) <? Finite x)%fp = true ->
  (Finite x <? fst (support max_value (pareto l s)))%fp = true ->
  pdf (pareto l s) (Finite x) = Ok (Finite 0) /\
  cdf (pareto l s) (Finite x) = Ok (Finite 0).
Proof.
  intros Hl Hs Hlow Hup.
  apply Flt_inv in Hlow. apply Flt_inv in Hup.
  split; [apply pdf_below | apply cdf_at_or_below]; lra.
Qed.

End Further.

(** ** Instances of the further properties *)

Lemma check_pareto_order_witness :
  same_error (detail.check_pareto "f" NaN (Finite (-1)))
    (detail.check_pareto_location "f" NaN) /\
  detail.check_pareto "f" PosInf NaN =
    DomainError "f" "Location parameter is %1%, but must be finite!" PosInf.
Proof.
  split.
  - apply (check_pareto_order "f" NaN (Finite (-1))). reflexivity.
  - reflexivity.
Defined.

Lemma parameter_error_reported_witness :
  same_error (cdf {| m_location := Finite 1; m_shape := NaN |} (Finite 1))
    (detail.check_pareto
       "boost::math::cdf(const pareto_distribution<%1%>&, %1%)"
       (Finite 1) NaN) /\
  same_error
    (quantile double_max_value {| m_location := Finite 1; m_shape := NaN |}
       (Finite 0))
    (detail.check_pareto
       "boost::math::quantile(const pareto_distribution<%1%>&, %1%)"
       (Finite 1) NaN).
Proof.
  assert (Hx : valid_x (Finite 1) = true).
  { apply valid_x_finite. exists 1. split; [reflexivity | lra]. }
  assert (Hp : valid_probability (Finite 0) = true).
  { apply valid_probability_finite. exists 0. split; [reflexivity | lra]. }
  assert (Hv : valid_parameters {| m_location := Finite 1; m_shape := NaN |}
               = false).
  { unfold valid_parameters. cbn. apply andb_false_r. }
  destruct (parameter_error_reported double_max_value
              {| m_location := Finite 1; m_shape := NaN |}
              (Finite 1) (Finite 0) Hx Hp Hv)
    as (_ & Hcdf & _ & Hq & _).
  split; assumption.
Defined.


Lemma kurtosis_errors_coincide_witness :
  kurtosis (pareto 1 4) = kurtosis_excess (pareto 1 4).
Proof.
  apply kurtosis_errors_coincide.
  rewrite kurtosis_undefined by lra. reflexivity.
Defined.

Lemma below_support_is_zero_witness :
  pdf (pareto 2 3) (Finite 1) = Ok (Finite 0) /\
  cdf (pareto 2 3) (Finite 1) = Ok (Finite 0).
Proof.
  apply (below_support_is_zero double_max_value 2 3 1); try lra;
    cbn; now decide_real.
Defined.

(** * The entry points at [double] *)

(** ** Order of binary64 numbers *)

Lemma SFcompare_antisym (x y : spec_float) :
  SFcompare y x = option_map CompOpp (SFcompare x y).
Proof.
  destruct x as [sx | sx | | sx mx ex], y as [sy | sy | | sy my ey];
    cbn; try reflexivity;
    try (destruct sx; reflexivity); try (destruct sy; reflexivity);
    try (destruct sx, sy; reflexivity).
  f_equal.
  pose proof (Z.compare_antisym ex ey) as Hz.
  pose proof (Pos.compare_cont_antisym mx my Eq) as Hp. cbn in Hp.
  destruct sx, sy; try reflexivity; rewrite Hz;
    destruct (ex ?= ey)%Z; cbn; try reflexivity.
  all: change (PosDef.Pos.compare_cont Eq my mx)
         with (Pos.compare_cont Eq my mx);
       change (PosDef.Pos.compare_cont Eq mx my)
         with (Pos.compare_cont Eq mx my);
       rewrite <- Hp; destruct (Pos.compare_cont Eq mx my); reflexivity.
Qed.

(** Rewrites the three comparisons of [a] and [b], in both directions, to
    one case analysis on [SFcompare]. *)
Ltac compare_floats a b :=
  rewrite ?ltb_spec, ?leb_spec, ?eqb_spec;
  unfold SFltb, SFleb, SFeqb;
  rewrite ?(SFcompare_antisym (Prim2SF a) (Prim2SF b));
  destruct (SFcompare (Prim2SF a) (Prim2SF b)) as [[] |];
  cbn; congruence.

Lemma ltb_asym (a b : float) :
  (a <? b)%float = true -> (b <? a)%float = false.
Proof. compare_floats a b. Qed.

Lemma ltb_not_leb (a b : float) :
  (a <? b)%float = true -> (b <=? a)%float = false.
Proof. compare_floats a b. Qed.

Lemma leb_not_ltb (a b : float) :
  (a <=? b)%float = true -> (b <? a)%float = false.
Proof. compare_floats a b. Qed.

Lemma ltb_not_eqb (a b : float) :
  (a <? b)%float = true ->
  (a =? b)%float = false /\ (b =? a)%float = false.
Proof. split; revert H; compare_floats a b. Qed.

Lemma ltb_irrefl (a : float) : (a <? a)%float = false.
Proof.
  destruct (a <? a)%float eqn:E; [| reflexivity].
  now rewrite (ltb_asym a a E) in E.
Qed.

(** A number strictly between two others is finite. *)
Lemma isfinite_between (a x b : float) :
  (a <? x)%float = true -> (x <? b)%float = true -> Double.isfinite x = true.
Proof.
  unfold Double.isfinite. rewrite !ltb_spec, classify_spec.
  unfold SFltb, SF64classify, SFclassify.
  destruct (Prim2SF x) as [sx | sx | | sx mx ex].
  - destruct sx; reflexivity.
  - destruct sx.
    + destruct (Prim2SF a) as [sa | sa | | sa ma ea]; cbn;
        try discriminate; destruct sa; discriminate.
    + intros _. destruct (Prim2SF b) as [sb | sb | | sb mb eb]; cbn;
        try discriminate; destruct sb; discriminate.
  - destruct (Prim2SF a); cbn; discriminate.
  - intros _ _. destruct sx;
      destruct (Z.eqb (Z.pos (digits2_pos mx)) prec); reflexivity.
Qed.

(** The numbers equal to zero are the two zeros; only 1 is equal to 1. *)
Lemma eqb_zero_inv (p : float) :
  (p =? 0)%float = true -> p = 0%float \/ p = (-0)%float.
Proof.
  rewrite eqb_spec. unfold SFeqb.
  change (Prim2SF 0) with (S754_zero false).
  destruct (Prim2SF p) as [sp | sp | | sp mp ep] eqn:E; cbn;
    try discriminate; try (destruct sp; discriminate).
  intros _. rewrite <- (SF2Prim_Prim2SF p), E.
  destruct sp; [right | left]; reflexivity.
Qed.

Lemma eqb_one_inv (p : float) : (p =? 1)%float = true -> p = 1%float.
Proof.
  rewrite eqb_spec. unfold SFeqb. intros H. apply Prim2SF_inj.
  assert (E1 : Prim2SF 1 = S754_finite false 4503599627370496 (-52))
    by (vm_compute; reflexivity).
  rewrite E1 in *.
  destruct (Prim2SF p) as [sp | sp | | sp mp ep].
  - destruct sp; discriminate H.
  - destruct sp; discriminate H.
  - discriminate H.
  - unfold SFcompare in H.
    destruct sp; [discriminate H |].
    destruct (Z.compare ep (-52)) eqn:Ez; try discriminate H.
    apply Z.compare_eq in Ez.
    destruct (PosDef.Pos.compare_cont Eq mp 4503599627370496) eqn:Em;
      try discriminate H.
    apply (Pos.compare_eq mp 4503599627370496) in Em.
    now subst.
Qed.

Section DoubleProperties.

Import Double.
Local Open Scope float_scope.
Local Open Scope double_scope.

Variable pow : RealType -> RealType -> RealType.
Variable powm1 : RealType -> RealType -> RealType.

(** ** The checks on valid arguments *)

Lemma double_check_pareto_ok (function : string) (dist : pareto_distribution) :
  valid_parameters dist = true ->
  detail.check_pareto function (location dist) (shape dist) = Ok tt.
Proof.
  unfold valid_parameters, detail.check_pareto, detail.check_pareto_location,
    detail.check_pareto_shape.
  destruct (isfinite (location dist)), (0 <? location dist),
    (isfinite (shape dist)), (0 <? shape dist); cbn; congruence.
Qed.

Lemma double_check_pareto_x_ok (function : string) (x : RealType) :
  valid_x x = true -> detail.check_pareto_x function x = Ok tt.
Proof.
  unfold valid_x, detail.check_pareto_x.
  destruct (isfinite x), (0 <? x); cbn; congruence.
Qed.

(** The location of a valid distribution is a valid argument. *)
Lemma double_location_valid_x (dist : pareto_distribution) :
  valid_parameters dist = true -> valid_x (location dist) = true.
Proof.
  unfold valid_parameters, valid_x.
  destruct (isfinite (location dist)), (0 <? location dist); cbn; congruence.
Qed.

Lemma double_check_probability_ok (function : string) (p : RealType) :
  (p <? 0) = false -> (1 <? p) = false -> isfinite p = true ->
  detail.check_probability function p = Ok tt.
Proof.
  intros H0 H1 Hf. unfold detail.check_probability.
  now rewrite H0, H1, Hf.
Qed.

Lemma double_check_probability_zero (function : string) (p : RealType) :
  (p =? 0) = true -> detail.check_probability function p = Ok tt.
Proof.
  intros H. destruct (eqb_zero_inv p H) as [-> | ->]; reflexivity.
Qed.

Lemma double_check_probability_interior (function : string) (p : RealType) :
  (0 <? p) = true -> (p <? 1) = true ->
  detail.check_probability function p = Ok tt /\
  (p =? 0) = false /\ (p =? 1) = false.
Proof.
  intros H0 H1. repeat split.
  - apply double_check_probability_ok.
    + now apply ltb_asym.
    + now apply ltb_asym.
    + now apply (isfinite_between 0 p 1).
  - now apply (ltb_not_eqb 0 p).
  - now apply (ltb_not_eqb p 1).
Qed.

(** Passes the checks of an entry point called on valid arguments. *)
Ltac pass_double_checks :=
  cbn [c_dist c_param];
  rewrite ?double_check_pareto_x_ok, ?double_check_pareto_ok by assumption;
  cbn [bind].

(** ** The values returned *)

(** C1: on a valid distribution and a finite [x > 0], [cdf] returns 0 when
    [x <= location] (the boundary included) and, when [x > location], the
    value of [1 - (location/x)^shape] as the header computes it:
    [-powm1(location/x, shape)] in binary64 arithmetic. *)
Theorem double_cdf_returns (dist : pareto_distribution) (x : RealType) :
  valid_parameters dist = true -> valid_x x = true ->
  ((x <=? location dist) = true -> cdf powm1 dist x = Ok 0) /\
  ((location dist <? x) = true ->
   cdf powm1 dist x = Ok (- powm1 (location dist / x) (shape dist))).
Proof.
  intros Hv Hx. split; intros Hc; unfold cdf; pass_double_checks.
  - now rewrite Hc.
  - now rewrite (ltb_not_leb _ _ Hc).
Qed.

(** C2: on a valid distribution and a finite [x > 0], the complemented
    cdf returns 1 when [x <= location] and, when [x > location],
    [pow(location/x, shape)] in binary64 arithmetic. *)
Theorem double_cdf_complement_returns
    (dist : pareto_distribution) (x : RealType) :
  valid_parameters dist = true -> valid_x x = true ->
  ((x <=? location dist) = true ->
   cdf_complement pow (complement dist x) = Ok 1) /\
  ((location dist <? x) = true ->
   cdf_complement pow (complement dist x) =
   Ok (pow (location dist / x) (shape dist))).
Proof.
  intros Hv Hx. split; intros Hc; unfold cdf_complement; pass_double_checks.
  - now rewrite Hc.
  - now rewrite (ltb_not_leb _ _ Hc).
Qed.

(** C3: on a valid distribution and a finite [x > 0], [pdf] returns
    exactly 0, without an error, when [x < location] (strictly), whatever
    the shape, and otherwise
    [shape * pow(location, shape) / pow(x, shape + 1)] in binary64
    arithmetic. *)
Theorem double_pdf_returns (dist : pareto_distribution) (x : RealType) :
  valid_parameters dist = true -> valid_x x = true ->
  ((x <? location dist) = true -> pdf pow dist x = Ok 0) /\
  ((x <? location dist) = false ->
   pdf pow dist x =
   Ok (shape dist * pow (location dist) (shape dist)
       / pow x (shape dist + 1))).
Proof.
  intros Hv Hx. split; intros Hc; unfold pdf; pass_double_checks;
    now rewrite Hc.
Qed.

(** C4: on a valid distribution, [quantile] returns exactly [location]
    when [p == 0], [max_value] when [p == 1], and
    [location / pow(1 - p, 1/shape)] in binary64 arithmetic for
    [0 < p < 1]; the complemented quantile returns exactly [location] when
    [q == 1], [max_value] when [q == 0], and [location / pow(q, 1/shape)]
    for [0 < q < 1]. *)
Theorem double_quantile_returns (dist : pareto_distribution) :
  valid_parameters dist = true ->
  (forall p, (p =? 0) = true -> quantile pow dist p = Ok (location dist)) /\
  (forall p, (p =? 1) = true -> quantile pow dist p = Ok max_value) /\
  (forall p, (0 <? p) = true -> (p <? 1) = true ->
     quantile pow dist p =
     Ok (location dist / pow (1 - p) (1 / shape dist))) /\
  (forall q, (q =? 1) = true ->
     quantile_complement pow (complement dist q) = Ok (location dist)) /\
  (forall q, (q =? 0) = true ->
     quantile_complement pow (complement dist q) = Ok max_value) /\
  (forall q, (0 <? q) = true -> (q <? 1) = true ->
     quantile_complement pow (complement dist q) =
     Ok (location dist / pow q (1 / shape dist))).
Proof.
  intros Hv.
  assert (Hone : forall f, detail.check_probability f 1 = Ok tt)
    by reflexivity.
  repeat split.
  - intros p Hp. unfold quantile.
    rewrite double_check_probability_zero by assumption.
    pass_double_checks. now rewrite Hp.
  - intros p Hp. apply eqb_one_inv in Hp. subst p. unfold quantile.
    rewrite Hone. pass_double_checks. reflexivity.
  - intros p H0 H1. unfold quantile.
    destruct (double_check_probability_interior
                "boost::math::quantile(const pareto_distribution<%1%>&, %1%)"
                p H0 H1) as (Hc & Hz & Ho).
    rewrite Hc. pass_double_checks. now rewrite Hz, Ho.
  - intros q Hq. apply eqb_one_inv in Hq. subst q. unfold quantile_complement.
    cbn [c_param]. rewrite Hone. pass_double_checks. reflexivity.
  - intros q Hq. unfold quantile_complement. cbn [c_param].
    rewrite double_check_probability_zero by assumption.
    pass_double_checks.
    destruct (eqb_zero_inv q Hq) as [-> | ->]; reflexivity.
  - intros q H0 H1. unfold quantile_complement. cbn [c_param].
    destruct (double_check_probability_interior
                "boost::math::quantile(const pareto_distribution<%1%>&, %1%)"
                q H0 H1) as (Hc & Hz & Ho).
    rewrite Hc. pass_double_checks. now rewrite Hz, Ho.
Qed.


(** C6: on a valid distribution, [mean] returns
    [shape * location / (shape - 1)] in binary64 arithmetic when
    [shape > 1] and the value [max_value], not an error, when
    [shape <= 1]; [variance] returns
    [location * location * shape / ((shape-1) * (shape-1) * (shape-2))]
    when [shape > 2] and raises a domain error when [shape <= 2]. *)
Theorem double_mean_variance_returns (dist : pareto_distribution) :
  valid_parameters dist = true ->
  ((1 <? shape dist) = true ->
   mean dist = Ok (shape dist * location dist / (shape dist - 1))) /\
  ((shape dist <=? 1) = true -> mean dist = Ok max_value) /\
  ((2 <? shape dist) = true ->
   variance dist =
   Ok ((location dist * location dist * shape dist) /
       ((shape dist - 1) * (shape dist - 1) * (shape dist - 2)))) /\
  ((shape dist <=? 2) = true ->
   variance dist =
   DomainError "boost::math::variance(const pareto_distribution<%1%>&, %1%)"
     "variance is undefined for shape <= 2, but got %1%." (shape dist)).
Proof.
  intros Hv. repeat split; intros Hc; unfold mean, variance;
    pass_double_checks.
  - now rewrite Hc.
  - now rewrite (leb_not_ltb _ _ Hc).
  - now rewrite Hc.
  - now rewrite (leb_not_ltb _ _ Hc).
Qed.

(** C10, amended: on a valid distribution, [pdf] at [x == location] takes
    the formula branch (the zero branch tests [x < location] strictly): it
    returns [shape * pow(location, shape) / pow(location, shape + 1)] in
    binary64 arithmetic; [support] reports the pair
    [(location, max_value)]. *)
Theorem double_pdf_at_location (dist : pareto_distribution) :
  valid_parameters dist = true ->
  pdf pow dist (location dist) =
    Ok (shape dist * pow (location dist) (shape dist)
        / pow (location dist) (shape dist + 1)) /\
  support dist = (location dist, max_value).
Proof.
  intros Hv. split; [| reflexivity].
  unfold pdf.
  rewrite double_check_pareto_x_ok by now apply double_location_valid_x.
  pass_double_checks. now rewrite ltb_irrefl.
Qed.

(** X19: on a valid distribution [skewness] returns
    [sqrt((shape-2)/shape) * 2 * (shape+1) / (shape-3)] in binary64
    arithmetic when [shape > 3]; when [shape <= 3] it raises a domain
    error with the message "skewness is undefined for shape <= 3", the
    shape as the offending value, and the function name of [pdf]. *)
Theorem double_skewness_returns (dist : pareto_distribution) :
  valid_parameters dist = true ->
  ((3 <? shape dist) = true ->
   skewness dist =
   Ok (sqrt ((shape dist - 2) / shape dist) * 2 * (shape dist + 1)
       / (shape dist - 3))) /\
  ((shape dist <=? 3) = true ->
   skewness dist =
   DomainError "boost::math::pdf(const pareto_distribution<%1%>&, %1%)"
     "skewness is undefined for shape <= 3, but got %1%." (shape dist)).
Proof.
  intros Hv. split; intros Hc; unfold skewness; pass_double_checks.
  - now rewrite Hc.
  - now rewrite (leb_not_ltb _ _ Hc).
Qed.

End DoubleProperties.

(** ** Evaluations at [double] *)

Section DoubleInstances.

Import Double.
Local Open Scope float_scope.
Local Open Scope double_scope.

(** Location 2, shape 3: the mean is 3. *)
Example double_mean_2_3 :
  mean {| m_location := 2; m_shape := 3 |} =
  Ok 3.
Proof. reflexivity. Qed.

(** Location [2^1023], shape 3: the product [shape * location] overflows
    and the mean returned is infinity. *)
Example double_mean_overflow :
  mean {| m_location := 0x1p+1023; m_shape := 3 |} =
  Ok infinity.
Proof. reflexivity. Qed.

(** ** Instances at [double] *)

Lemma double_cdf_returns_witness :
  cdf powm1_known
    {| m_location := 2; m_shape := 3 |} 2 =
    Ok 0 /\
  cdf powm1_known
    {| m_location := 2; m_shape := 3 |} 4 =
    Ok (- powm1_known (2 / 4) 3).
Proof.
  destruct (double_cdf_returns powm1_known
              {| m_location := 2; m_shape := 3 |} 2 eq_refl eq_refl)
    as [Hle _].
  destruct (double_cdf_returns powm1_known
              {| m_location := 2; m_shape := 3 |} 4 eq_refl eq_refl)
    as [_ Hgt].
  split; [apply Hle | apply Hgt]; reflexivity.
Defined.

Lemma double_cdf_complement_returns_witness :
  cdf_complement pow_known
    (complement {| m_location := 2; m_shape := 3 |} 2) =
    Ok 1 /\
  cdf_complement pow_known
    (complement {| m_location := 2; m_shape := 3 |} 4) =
    Ok (pow_known (2 / 4) 3).
Proof.
  destruct (double_cdf_complement_returns pow_known
              {| m_location := 2; m_shape := 3 |} 2 eq_refl eq_refl)
    as [Hle _].
  destruct (double_cdf_complement_returns pow_known
              {| m_location := 2; m_shape := 3 |} 4 eq_refl eq_refl)
    as [_ Hgt].
  split; [apply Hle | apply Hgt]; reflexivity.
Defined.

Lemma double_pdf_returns_witness :
  pdf pow_known
    {| m_location := 2; m_shape := 1 |} 1 =
    Ok 0 /\
  pdf pow_known
    {| m_location := 2; m_shape := 1 |} 4 =
    Ok (1 * pow_known 2 1 / pow_known 4 (1 + 1)).
Proof.
  destruct (double_pdf_returns pow_known
              {| m_location := 2; m_shape := 1 |} 1 eq_refl eq_refl)
    as [Hlt _].
  destruct (double_pdf_returns pow_known
              {| m_location := 2; m_shape := 1 |} 4 eq_refl eq_refl)
    as [_ Hge].
  split; [apply Hlt | apply Hge]; reflexivity.
Defined.

Lemma double_quantile_returns_witness :
  quantile pow_known {| m_location := 2; m_shape := 1 |} 0 = Ok 2 /\
  quantile pow_known {| m_location := 2; m_shape := 1 |} 1 = Ok max_value /\
  quantile pow_known {| m_location := 2; m_shape := 1 |} 0.5 =
    Ok (2 / pow_known (1 - 0.5) (1 / 1)) /\
  quantile_complement pow_known
    (complement {| m_location := 2; m_shape := 1 |} 0.25) =
    Ok (2 / pow_known 0.25 (1 / 1)).
Proof.
  destruct (double_quantile_returns pow_known
              {| m_location := 2; m_shape := 1 |} eq_refl)
    as (H0 & H1 & Hp & _ & _ & Hq).
  split; [apply H0; reflexivity |].
  split; [apply H1; reflexivity |].
  split; [apply Hp; reflexivity | apply Hq; reflexivity].
Defined.



Lemma double_mean_variance_returns_witness :
  mean {| m_location := 2; m_shape := 3 |} =
    Ok (3 * 2 / (3 - 1)) /\
  mean {| m_location := 2; m_shape := 0.5 |} =
    Ok max_value /\
  variance {| m_location := 2; m_shape := 3 |} =
    Ok (2 * 2 * 3 / ((3 - 1) * (3 - 1) * (3 - 2))) /\
  variance {| m_location := 2; m_shape := 2 |} =
    DomainError
      "boost::math::variance(const pareto_distribution<%1%>&, %1%)"
      "variance is undefined for shape <= 2, but got %1%." 2.
Proof.
  destruct (double_mean_variance_returns
              {| m_location := 2; m_shape := 3 |} eq_refl)
    as (Hmean & _ & Hvar & _).
  destruct (double_mean_variance_returns
              {| m_location := 2; m_shape := 0.5 |} eq_refl)
    as (_ & Hmax & _ & _).
  destruct (double_mean_variance_returns
              {| m_location := 2; m_shape := 2 |} eq_refl)
    as (_ & _ & _ & Herr).
  split; [apply Hmean; reflexivity |].
  split; [apply Hmax; reflexivity |].
  split; [apply Hvar; reflexivity | apply Herr; reflexivity].
Defined.

(** C10 as stated fails at [double]: with location [2^600] and shape 1
    the second power overflows, and [pdf] at the location returns 0, which
    is neither positive nor [shape/location]. *)
Lemma double_pdf_at_location_is_zero :
  valid_parameters
    {| m_location := 0x1p+600; m_shape := 1 |} = true /\
  pdf pow_known
    {| m_location := 0x1p+600; m_shape := 1 |} 0x1p+600 =
    Ok 0 /\
  (0 <? 0) = false /\
  (1 / 0x1p+600 =? 0) = false.
Proof. repeat split. Qed.

Lemma double_pdf_at_location_witness :
  pdf pow_known
    {| m_location := 2; m_shape := 1 |} 2 =
    Ok (1 * pow_known 2 1 / pow_known 2 (1 + 1)) /\
  support {| m_location := 2; m_shape := 1 |} =
    (2, max_value).
Proof.
  apply (double_pdf_at_location pow_known
           {| m_location := 2; m_shape := 1 |}).
  reflexivity.
Defined.

Lemma double_skewness_returns_witness :
  skewness {| m_location := 2; m_shape := 5 |} =
    Ok (sqrt ((5 - 2) / 5) * 2 * (5 + 1) / (5 - 3)) /\
  skewness {| m_location := 2; m_shape := 3 |} =
    DomainError
      "boost::math::pdf(const pareto_distribution<%1%>&, %1%)"
      "skewness is undefined for shape <= 3, but got %1%." 3.
Proof.
  destruct (double_skewness_returns
              {| m_location := 2; m_shape := 5 |} eq_refl) as [Hval _].
  destruct (double_skewness_returns
              {| m_location := 2; m_shape := 3 |} eq_refl) as [_ Herr].
  split; [apply Hval | apply Herr]; reflexivity.
Defined.

End DoubleInstances.
